(** * Recommendation engine of the university WiFi monitoring system

    Shallow embedding of [src/src/analytics/recommendation_engine.py]
    (class [RecommendationEngine]).

    Modelling choices:
    - Python floats holding measurements, coordinates, radii and scores are
      modelled as exact rationals [Q]; [round(x, 2)] is modelled as exact
      round-half-even to two decimals.
    - The haversine distance uses [sin], [cos], [asin] and [sqrt] and is
      therefore a real number [R]; the radius comparison is decided with
      [Rle_dec].
    - The SQLite store is a record of the two tables the queries read; the
      LEFT JOIN with the latest-metrics subquery is written out, rows come
      in the order of the [access_points] table.
    - A Python value that may be [None] is an [option]; the idiom
      [x or d] (which also replaces a falsy [0]) is [py_or]. *)

From Stdlib Require Import QArith Qround Qminmax Qabs Qreals.
From Stdlib Require Import Reals Lra Lia ZArith List String Ascii Bool.
From Stdlib Require Import Sorting.Permutation Sorting.Sorted.
From Stdlib Require Lqa Qfield.
Import ListNotations.

Local Open Scope Q_scope.

(** ** Tables of the store *)

Record access_point := {
  ap_id : Z;
  ap_ap_name : string;
  ap_building : string;
  ap_floor : Z;
  ap_room_number : string;
  ap_latitude : option Q;
  ap_longitude : option Q
}.

Record performance_metric := {
  pm_ap_id : Z;
  pm_download_speed : option Q;
  pm_upload_speed : option Q;
  pm_latency : option Q;
  pm_connected_users : option Z;
  pm_signal_strength : option Q;
  pm_timestamp : Z
}.

Record database := {
  access_points : list access_point;
  performance_metrics : list performance_metric
}.

(** One row of the SELECT shared by [get_nearby_access_points] and
    [get_current_ap_status]: the access point's columns and, from the LEFT
    JOIN, the columns of its latest metric ([None] when it has none). *)
Record row := {
  id : Z;
  ap_name : string;
  building : string;
  floor : Z;
  room_number : string;
  latitude : option Q;
  longitude : option Q;
  download_speed : option Q;
  upload_speed : option Q;
  latency : option Q;
  connected_users : option Z;
  signal_strength : option Q;
  timestamp : option Z
}.

Definition opt_bind {A B} (f : A -> option B) (o : option A) : option B :=
  match o with Some a => f a | None => None end.

Definition mk_row (ap : access_point) (pm : option performance_metric) : row :=
  {| id := ap_id ap;
     ap_name := ap_ap_name ap;
     building := ap_building ap;
     floor := ap_floor ap;
     room_number := ap_room_number ap;
     latitude := ap_latitude ap;
     longitude := ap_longitude ap;
     download_speed := opt_bind pm_download_speed pm;
     upload_speed := opt_bind pm_upload_speed pm;
     latency := opt_bind pm_latency pm;
     connected_users := opt_bind pm_connected_users pm;
     signal_strength := opt_bind pm_signal_strength pm;
     timestamp := option_map pm_timestamp pm |}.

(** [SELECT ap_id, MAX(timestamp) FROM performance_metrics GROUP BY ap_id]:
    the largest timestamp recorded for one access point. *)
Definition max_timestamp (ms : list performance_metric) (aid : Z) : option Z :=
  fold_left
    (fun acc m =>
       if Z.eqb (pm_ap_id m) aid then
         match acc with
         | None => Some (pm_timestamp m)
         | Some t => Some (Z.max t (pm_timestamp m))
         end
       else acc)
    ms None.

(** The subquery [WHERE (ap_id, timestamp) IN (...)]. *)
Definition latest_metrics (ms : list performance_metric) : list performance_metric :=
  filter
    (fun m => match max_timestamp ms (pm_ap_id m) with
              | Some t => Z.eqb t (pm_timestamp m)
              | None => false
              end)
    ms.

(** [access_points ap LEFT JOIN (...) pm ON ap.id = pm.ap_id]. *)
Definition left_join (ap : access_point) (latest : list performance_metric) : list row :=
  match filter (fun m => Z.eqb (pm_ap_id m) (ap_id ap)) latest with
  | [] => [mk_row ap None]
  | ms => map (fun m => mk_row ap (Some m)) ms
  end.

Definition is_not_null {A} (o : option A) : bool :=
  match o with Some _ => true | None => false end.

(** The whole SELECT, with
    [WHERE ap.latitude IS NOT NULL AND ap.longitude IS NOT NULL]. *)
Definition located_rows (db : database) : list row :=
  filter (fun r => is_not_null (latitude r) && is_not_null (longitude r))
    (flat_map (fun ap => left_join ap (latest_metrics (performance_metrics db)))
       (access_points db)).

(** ** Quality scorer *)

(** Strict comparison of rationals as a boolean. *)
Definition Qlt_bool (x y : Q) : bool := negb (Qle_bool y x).

(** Python truthiness of an optional number: [None] and [0] are falsy. *)
Definition py_truthy (o : option Q) : bool :=
  match o with
  | Some q => negb (Qeq_bool q 0)
  | None => false
  end.

(** [x or d] on an optional number. *)
Definition py_or (o : option Q) (d : Q) : Q :=
  match o with
  | Some q => if Qeq_bool q 0 then d else q
  | None => d
  end.

Definition py_or_Z (o : option Z) (d : Z) : Z :=
  match o with
  | Some z => if Z.eqb z 0 then d else z
  | None => d
  end.

(** A latency is a number or [float('inf')]. *)
Inductive latency_value := Finite (q : Q) | Infinity.

Definition latency_or_inf (o : option Q) : latency_value :=
  match o with
  | Some q => if Qeq_bool q 0 then Infinity else Finite q
  | None => Infinity
  end.

(** [min(latency * 1000, 1000)]; [inf * 1000] is [inf]. *)
Definition min_latency_ms (l : latency_value) : Q :=
  match l with
  | Finite q => Qmin (q * 1000) 1000
  | Infinity => 1000
  end.

(** [round(x)] to an integer, ties to even. *)
Definition round_half_even (q : Q) : Z :=
  let f := Qfloor q in
  match Qcompare (q - inject_Z f) (1 # 2) with
  | Lt => f
  | Gt => (f + 1)%Z
  | Eq => if Z.even f then f else (f + 1)%Z
  end.

(** [round(x, 2)]. *)
Definition round2 (q : Q) : Q := Qred (round_half_even (q * 100) # 100).

Definition calculate_quality_score (data : row) : Q :=
  let download_speed := py_or (download_speed data) 0 in
  let upload_speed := py_or (upload_speed data) 0 in
  let latency := latency_or_inf (latency data) in
  let connected_users := py_or_Z (connected_users data) 0 in
  let signal_strength := py_or (signal_strength data) (-80) in
  let norm_download := Qmin (download_speed / 100 * 100) 100 in
  let norm_upload := Qmin (upload_speed / 50 * 100) 100 in
  let norm_latency := Qmax ((1000 - min_latency_ms latency) / 10) 0 in
  let norm_users := Qmax (100 - inject_Z (Z.min connected_users 50) * (3 # 2)) 0 in
  let norm_signal := Qmax 0 (Qmin 100 (130 + signal_strength)) in
  let quality_score :=
    (35 # 100) * norm_download +
    (15 # 100) * norm_upload +
    (2 # 10) * norm_latency +
    (2 # 10) * norm_users +
    (1 # 10) * norm_signal in
  round2 quality_score.

Definition get_status_from_score (score : Q) : string :=
  if Qle_bool 80 score then "Excellent"%string
  else if Qle_bool 60 score then "Good"%string
  else if Qle_bool 40 score then "Medium"%string
  else "Poor"%string.

Example score_example_max :
  calculate_quality_score
    {| id := 1; ap_name := "AP"; building := "B"; floor := 1; room_number := "R";
       latitude := None; longitude := None;
       download_speed := Some 100; upload_speed := Some 50; latency := Some (1 # 1000);
       connected_users := Some 0%Z; signal_strength := Some (-30); timestamp := None |}
  = Qred (9998 # 100).
Proof. reflexivity. Qed.

(** ** Haversine distance *)

Local Open Scope R_scope.

(** [math.radians]. *)
Definition radians (x : R) : R := x * (PI / 180).

Definition haversine_distance (lat1 lon1 lat2 lon2 : R) : R :=
  let lat1 := radians lat1 in
  let lon1 := radians lon1 in
  let lat2 := radians lat2 in
  let lon2 := radians lon2 in
  let dlat := lat2 - lat1 in
  let dlon := lon2 - lon1 in
  let a := (sin (dlat / 2)) ^ 2 + cos lat1 * cos lat2 * (sin (dlon / 2)) ^ 2 in
  let c := 2 * asin (sqrt a) in
  let r := 6371000 in
  c * r.

(** [round(x, 2)] on a real distance, ties to even. *)
Definition round2_R (x : R) : R :=
  let y := x * 100 in
  let f := (up y - 1)%Z in
  let d := y - IZR f in
  if Rlt_dec d (1 / 2) then IZR f / 100
  else if Rlt_dec (1 / 2) d then IZR (f + 1) / 100
  else if Z.even f then IZR f / 100 else IZR (f + 1) / 100.

Local Close Scope R_scope.

(** ** Scored candidates *)

(** [ap_dict] after the keys [distance], [quality_score] and [status] are
    added. *)
Record candidate := {
  c_row : row;
  c_distance : R;
  quality_score : Q;
  status : string
}.

Definition distance_to (user_lat user_lon : Q) (r : row) : R :=
  match latitude r, longitude r with
  | Some lat, Some lon =>
      haversine_distance (Q2R user_lat) (Q2R user_lon) (Q2R lat) (Q2R lon)
  | _, _ => 0%R
  end.

Definition score_row (user_lat user_lon : Q) (r : row) : candidate :=
  let qs := calculate_quality_score r in
  {| c_row := r;
     c_distance := round2_R (distance_to user_lat user_lon r);
     quality_score := qs;
     status := get_status_from_score qs |}.

(** The body of the loop of [get_nearby_access_points] (and the tail of
    [get_current_ap_status]): the location test, the distance test and the
    enrichment. *)
Definition score_if_within (user_lat user_lon : Q) (radius : Q) (r : row)
    : option candidate :=
  if py_truthy (latitude r) && py_truthy (longitude r) then
    if Rle_dec (distance_to user_lat user_lon r) (Q2R radius)
    then Some (score_row user_lat user_lon r)
    else None
  else None.

(** [list.sort(key=lambda x: x.get('quality_score', 0), reverse=True)]:
    stable, by decreasing score. *)
Fixpoint insert_desc (c : candidate) (l : list candidate) : list candidate :=
  match l with
  | [] => [c]
  | c' :: l' =>
      if Qle_bool (quality_score c) (quality_score c')
      then c' :: insert_desc c l'
      else c :: c' :: l'
  end.

Definition sort_by_score_desc (l : list candidate) : list candidate :=
  fold_left (fun acc c => insert_desc c acc) l [].

Definition get_nearby_access_points (db : database) (user_lat user_lon : Q)
    (radius : Q) : list candidate :=
  let nearby_aps :=
    flat_map
      (fun r => match score_if_within user_lat user_lon radius r with
                | Some c => [c]
                | None => []
                end)
      (located_rows db) in
  sort_by_score_desc nearby_aps.

(** ** Current-location resolver *)

(** [ABS(ap.latitude - ?) + ABS(ap.longitude - ?)]; the rows reaching the
    ORDER BY have both coordinates. *)
Definition manhattan (user_lat user_lon : Q) (r : row) : Q :=
  match latitude r, longitude r with
  | Some lat, Some lon => Qabs (lat - user_lat) + Qabs (lon - user_lon)
  | _, _ => 0
  end.

(** [ORDER BY ... LIMIT 1]: the first row of least Manhattan distance. *)
Fixpoint closest_from (user_lat user_lon : Q) (best : row) (rs : list row) : row :=
  match rs with
  | [] => best
  | r :: rs' =>
      if Qlt_bool (manhattan user_lat user_lon r) (manhattan user_lat user_lon best)
      then closest_from user_lat user_lon r rs'
      else closest_from user_lat user_lon best rs'
  end.

Definition order_by_manhattan_limit1 (user_lat user_lon : Q) (rs : list row)
    : option row :=
  match rs with
  | [] => None
  | r :: rs' => Some (closest_from user_lat user_lon r rs')
  end.

Definition get_current_ap_status (db : database) (user_lat user_lon : Q)
    (radius : Q) : option candidate :=
  match order_by_manhattan_limit1 user_lat user_lon (located_rows db) with
  | Some r => score_if_within user_lat user_lon radius r
  | None => None
  end.

(** ** Recommendation composer *)

(** The advisory message: one constructor per f-string of
    [_generate_advice_message], carrying the values it interpolates. *)
Inductive advice :=
| CouldNotDetect
    (* "We couldn't detect your current access point. Here are the best options nearby." *)
| PoorBestNearby (current_status : string) (best_building : string)
    (best_floor : Z) (best_ap_name : string) (best_download : Q)
    (* "Your current connection is {status}. Best nearby location: {building}
        Floor {floor} ({ap_name}) with {download_speed or 0} Mbps speed." *)
| PoorNoBetter (current_status : string)
    (* "... Unfortunately, no better options detected nearby." *)
| MediumBetterAt (current_status : string) (best_building : string)
    (best_floor : Z) (best_ap_name : string)
    (* "... You could get better performance at: {building} Floor {floor} ({ap_name})." *)
| MediumAmongBest (current_status : string)
    (* "... Current location is among the best options." *)
| MediumLikelyBest (current_status : string)
    (* "... Current location is likely the best option." *)
| EnjoyFast (current_status : string)
    (* "... Enjoy your fast connection!" *).

Definition _generate_advice_message (current_ap : option candidate)
    (recommendations : list candidate) : advice :=
  match current_ap with
  | None => CouldNotDetect
  | Some cur =>
      let current_score := quality_score cur in
      let current_status := status cur in
      if Qlt_bool current_score 40 then
        match recommendations with
        | best_option :: _ =>
            PoorBestNearby current_status (building (c_row best_option))
              (floor (c_row best_option)) (ap_name (c_row best_option))
              (py_or (download_speed (c_row best_option)) 0)
        | [] => PoorNoBetter current_status
        end
      else if Qlt_bool current_score 60 then
        match recommendations with
        | best_option :: _ =>
            if Qlt_bool current_score (quality_score best_option)
            then MediumBetterAt current_status (building (c_row best_option))
                   (floor (c_row best_option)) (ap_name (c_row best_option))
            else MediumAmongBest current_status
        | [] => MediumLikelyBest current_status
        end
      else EnjoyFast current_status
  end.

(** [l[:n]] for an integer [n], negative [n] counting from the end. *)
Definition py_slice_to {A} (l : list A) (n : Z) : list A :=
  if (0 <=? n)%Z then firstn (Z.to_nat n) l
  else firstn (Z.to_nat (Z.of_nat (List.length l) + n)) l.

Record recommendation_summary := {
  user_location : Q * Q;
  current_ap : option candidate;
  recommendations : list candidate;
  total_nearby_aps : nat;
  message : advice
}.

(** [if current_ap: nearby_aps = [ap for ap in nearby_aps if ap['id'] != current_ap['id']]]. *)
Definition exclude_current (current_ap : option candidate) (nearby_aps : list candidate)
    : list candidate :=
  match current_ap with
  | Some cur => filter (fun ap => negb (Z.eqb (id (c_row ap)) (id (c_row cur)))) nearby_aps
  | None => nearby_aps
  end.

Definition generate_recommendations (db : database) (user_lat user_lon : Q)
    (radius : Q) (num_recommendations : Z) : recommendation_summary :=
  let current_ap := get_current_ap_status db user_lat user_lon 50 in
  let nearby_aps := get_nearby_access_points db user_lat user_lon radius in
  let nearby_aps := exclude_current current_ap nearby_aps in
  let recommendations := py_slice_to nearby_aps num_recommendations in
  {| user_location := (user_lat, user_lon);
     current_ap := current_ap;
     recommendations := recommendations;
     total_nearby_aps := List.length nearby_aps;
     message := _generate_advice_message current_ap recommendations |}.

(** ** Lemmas on the model *)

Section Distance.

Local Open Scope R_scope.

Lemma haversine_distance_same : forall lat lon,
  haversine_distance lat lon lat lon = 0.
Proof.
  intros lat lon. unfold haversine_distance.
  rewrite !Rminus_diag, !Rdiv_0_l, sin_0.
  replace (0 ^ 2 + cos (radians lat) * cos (radians lat) * 0 ^ 2) with 0 by ring.
  rewrite sqrt_0, asin_0. ring.
Qed.

Lemma asin_nonneg : forall x, 0 <= x -> 0 <= asin x.
Proof.
  intros x Hx. unfold asin.
  destruct (Rle_dec x (-1)) as [H1|H1]; [lra|].
  destruct (Rle_dec 1 x) as [H2|H2].
  - pose proof PI_RGT_0. lra.
  - rewrite <- atan_0.
    assert (Hs : 0 < sqrt (1 - x²)).
    { apply sqrt_lt_R0. unfold Rsqr. nra. }
    assert (Hd : 0 <= x / sqrt (1 - x²)).
    { unfold Rdiv. apply Rmult_le_pos; [lra|]. left. apply Rinv_0_lt_compat. exact Hs. }
    destruct Hd as [Hd|Hd].
    + left. apply atan_increasing. exact Hd.
    + rewrite <- Hd. lra.
Qed.

Lemma haversine_distance_nonneg : forall lat1 lon1 lat2 lon2,
  0 <= haversine_distance lat1 lon1 lat2 lon2.
Proof.
  intros. unfold haversine_distance.
  apply Rmult_le_pos; [|lra].
  apply Rmult_le_pos; [lra|].
  apply asin_nonneg, sqrt_pos.
Qed.

End Distance.

Lemma distance_to_nonneg : forall u v r, (0 <= distance_to u v r)%R.
Proof.
  intros u v r. unfold distance_to.
  destruct (latitude r), (longitude r);
    try apply haversine_distance_nonneg; apply Rle_refl.
Qed.

Lemma distance_to_same : forall r lat lon,
  latitude r = Some lat -> longitude r = Some lon ->
  distance_to lat lon r = 0%R.
Proof.
  intros r lat lon Hlat Hlon. unfold distance_to. rewrite Hlat, Hlon.
  apply haversine_distance_same.
Qed.

Lemma insert_desc_perm : forall c l, Permutation (insert_desc c l) (c :: l).
Proof.
  intros c l. induction l as [|c' l IH]; simpl.
  - apply Permutation_refl.
  - destruct (Qle_bool (quality_score c) (quality_score c')).
    + eapply perm_trans; [apply perm_skip, IH|]. apply perm_swap.
    + apply Permutation_refl.
Qed.

Lemma sort_by_score_desc_perm : forall l, Permutation (sort_by_score_desc l) l.
Proof.
  intros l. unfold sort_by_score_desc.
  assert (H : forall acc, Permutation (fold_left (fun acc c => insert_desc c acc) l acc)
                                      (acc ++ l)).
  { induction l as [|c l IH]; intros acc; simpl.
    - rewrite app_nil_r. apply Permutation_refl.
    - eapply perm_trans; [apply IH|].
      eapply perm_trans; [apply Permutation_app_tail, insert_desc_perm|].
      simpl. apply Permutation_middle. }
  apply H.
Qed.

Lemma score_if_within_Some : forall u v radius r c,
  score_if_within u v radius r = Some c ->
  py_truthy (latitude r) = true /\ py_truthy (longitude r) = true /\
  (distance_to u v r <= Q2R radius)%R /\ c = score_row u v r.
Proof.
  intros u v radius r c H. unfold score_if_within in H.
  destruct (py_truthy (latitude r)), (py_truthy (longitude r)); try discriminate.
  destruct (Rle_dec (distance_to u v r) (Q2R radius)); [|discriminate].
  injection H as <-. auto.
Qed.

Lemma score_if_within_intro : forall u v radius r,
  py_truthy (latitude r) = true -> py_truthy (longitude r) = true ->
  (distance_to u v r <= Q2R radius)%R ->
  score_if_within u v radius r = Some (score_row u v r).
Proof.
  intros u v radius r H1 H2 H3. unfold score_if_within. rewrite H1, H2. simpl.
  destruct (Rle_dec (distance_to u v r) (Q2R radius)); [reflexivity|contradiction].
Qed.

Lemma nearby_In : forall db u v radius c,
  In c (get_nearby_access_points db u v radius) <->
  exists r, In r (located_rows db) /\ score_if_within u v radius r = Some c.
Proof.
  intros db u v radius c. unfold get_nearby_access_points.
  split.
  - intros H. eapply Permutation_in in H; [|apply sort_by_score_desc_perm].
    apply in_flat_map in H as [r [Hr Hc]].
    exists r. split; [exact Hr|].
    destruct (score_if_within u v radius r); [|contradiction].
    destruct Hc as [<-|[]]. reflexivity.
  - intros [r [Hr Hc]].
    eapply Permutation_in; [apply Permutation_sym, sort_by_score_desc_perm|].
    apply in_flat_map. exists r. split; [exact Hr|]. rewrite Hc. left. reflexivity.
Qed.

Lemma left_join_In : forall ap latest r,
  In r (left_join ap latest) -> exists pm, r = mk_row ap pm.
Proof.
  intros ap latest r H. unfold left_join in H.
  destruct (filter _ latest) as [|m ms].
  - destruct H as [<-|[]]. eauto.
  - apply in_map_iff in H as [m' [<- _]]. eauto.
Qed.

Lemma left_join_no_metric : forall ap latest,
  (forall m, In m latest -> pm_ap_id m <> ap_id ap) ->
  left_join ap latest = [mk_row ap None].
Proof.
  intros ap latest H. unfold left_join.
  destruct (filter (fun m => Z.eqb (pm_ap_id m) (ap_id ap)) latest) as [|m ms] eqn:E.
  - reflexivity.
  - exfalso. assert (Hm : In m (filter (fun m => Z.eqb (pm_ap_id m) (ap_id ap)) latest))
      by (rewrite E; left; reflexivity).
    apply filter_In in Hm as [Hin Heq]. apply Z.eqb_eq in Heq. exact (H m Hin Heq).
Qed.

Lemma located_rows_In : forall db r,
  In r (located_rows db) ->
  exists ap pm, In ap (access_points db) /\ r = mk_row ap pm /\
    is_not_null (ap_latitude ap) = true /\ is_not_null (ap_longitude ap) = true.
Proof.
  intros db r H. unfold located_rows in H.
  apply filter_In in H as [H Hloc]. apply andb_prop in Hloc as [Hlat Hlon].
  apply in_flat_map in H as [ap [Hap Hr]].
  apply left_join_In in Hr as [pm ->].
  exists ap, pm. auto.
Qed.

Lemma located_rows_no_metric : forall db ap,
  In ap (access_points db) ->
  (forall m, In m (performance_metrics db) -> pm_ap_id m <> ap_id ap) ->
  is_not_null (ap_latitude ap) = true -> is_not_null (ap_longitude ap) = true ->
  In (mk_row ap None) (located_rows db).
Proof.
  intros db ap Hap Hm Hlat Hlon. unfold located_rows.
  apply filter_In. split; [|simpl; rewrite Hlat, Hlon; reflexivity].
  apply in_flat_map. exists ap. split; [exact Hap|].
  rewrite left_join_no_metric; [left; reflexivity|].
  intros m Hin. apply Hm. unfold latest_metrics in Hin. apply filter_In in Hin. tauto.
Qed.

Lemma py_truthy_not_null : forall o, py_truthy o = true -> is_not_null o = true.
Proof. intros [q|]; simpl; congruence. Qed.

(** Every field of the metric is absent: the all-defaults score. *)
Lemma score_no_metric : forall ap, calculate_quality_score (mk_row ap None) = 25.
Proof. reflexivity. Qed.

Lemma Q2R_nonneg : forall q, 0 <= q -> (0 <= Q2R q)%R.
Proof.
  intros q Hq. replace 0%R with (Q2R 0) by (unfold Q2R; simpl; lra).
  apply Qle_Rle. exact Hq.
Qed.

(** ** Concrete stores *)

Definition library_ap : access_point :=
  {| ap_id := 1; ap_ap_name := "LIB-AP-1"; ap_building := "Library"; ap_floor := 2;
     ap_room_number := "201"; ap_latitude := Some 1; ap_longitude := Some 1 |}.

Definition library_metric : performance_metric :=
  {| pm_ap_id := 1; pm_download_speed := Some 40; pm_upload_speed := Some 20;
     pm_latency := Some (3 # 100); pm_connected_users := Some 10%Z;
     pm_signal_strength := Some (-60); pm_timestamp := 100 |}.

(** The access point is located but has no metric yet. *)
Definition db_unmeasured : database :=
  {| access_points := [library_ap]; performance_metrics := [] |}.

(** The access point with one metric. *)
Definition db_measured : database :=
  {| access_points := [library_ap]; performance_metrics := [library_metric] |}.

Example located_rows_unmeasured :
  located_rows db_unmeasured = [mk_row library_ap None].
Proof. reflexivity. Qed.

Example located_rows_measured :
  located_rows db_measured = [mk_row library_ap (Some library_metric)].
Proof. reflexivity. Qed.

(** The record of the spec's all-defaults example. *)
Definition all_defaults_record : row :=
  {| id := 1; ap_name := "LIB-AP-1"; building := "Library"; floor := 2;
     room_number := "201"; latitude := Some 1; longitude := Some 1;
     download_speed := Some 0; upload_speed := Some 0; latency := None;
     connected_users := Some 0%Z; signal_strength := None; timestamp := None |}.

(** ** Claims *)

(** C1 (as stated, refuted): the all-defaults record does not score 24.1;
    the default signal strength -80 dBm normalises to 50, not 41. *)
Lemma C1_counterexample :
  ~ (calculate_quality_score all_defaults_record == 241 # 10 /\
     get_status_from_score (calculate_quality_score all_defaults_record) = "Poor"%string).
Proof. intros [H _]. vm_compute in H. discriminate. Qed.

(** C1 (amended): the all-defaults record (download 0, upload 0, latency
    absent, 0 connected users, signal absent) scores exactly
    0.2 * 100 + 0.1 * 50 = 25.0 and is classified "Poor". *)
Theorem C1_all_defaults_score_25_poor :
  calculate_quality_score all_defaults_record = 25 /\
  get_status_from_score (calculate_quality_score all_defaults_record) = "Poor"%string.
Proof. split; reflexivity. Qed.

(** C2 (as stated, refuted): a located access point with no metric at all
    is returned by the nearby search. *)
Lemma C2_counterexample :
  exists c, In c (get_nearby_access_points db_unmeasured 1 1 1000) /\
    forall m, In m (performance_metrics db_unmeasured) -> pm_ap_id m <> id (c_row c).
Proof.
  exists (score_row 1 1 (mk_row library_ap None)). split.
  - apply nearby_In. exists (mk_row library_ap None). split.
    + rewrite located_rows_unmeasured. left. reflexivity.
    + apply score_if_within_intro; [reflexivity|reflexivity|].
      rewrite (distance_to_same _ 1 1) by reflexivity.
      apply Q2R_nonneg. discriminate.
  - simpl. tauto.
Qed.

(** C2 (amended): every candidate of the nearby search comes from an access
    point with both latitude and longitude recorded; an access point with
    non-zero coordinates within the radius that has no metric record is not
    excluded: it is returned, scored with the defaults (25.0). *)
Theorem C2_nearby_located_metricless_included : forall db user_lat user_lon radius,
  (forall c, In c (get_nearby_access_points db user_lat user_lon radius) ->
     exists ap pm, In ap (access_points db) /\ c_row c = mk_row ap pm /\
       is_not_null (ap_latitude ap) = true /\ is_not_null (ap_longitude ap) = true) /\
  (forall ap, In ap (access_points db) ->
     (forall m, In m (performance_metrics db) -> pm_ap_id m <> ap_id ap) ->
     py_truthy (ap_latitude ap) = true -> py_truthy (ap_longitude ap) = true ->
     (distance_to user_lat user_lon (mk_row ap None) <= Q2R radius)%R ->
     In (score_row user_lat user_lon (mk_row ap None))
        (get_nearby_access_points db user_lat user_lon radius) /\
     quality_score (score_row user_lat user_lon (mk_row ap None)) = 25).
Proof.
  intros db u v radius. split.
  - intros c Hc. apply nearby_In in Hc as [r [Hr Hs]].
    apply score_if_within_Some in Hs as [_ [_ [_ ->]]].
    apply located_rows_In in Hr as [ap [pm [Hap [-> [Hlat Hlon]]]]].
    exists ap, pm. auto.
  - intros ap Hap Hm Hlat Hlon Hd. split.
    + apply nearby_In. exists (mk_row ap None). split.
      * apply located_rows_no_metric; auto using py_truthy_not_null.
      * apply score_if_within_intro; assumption.
    + apply score_no_metric.
Qed.

(** Witness of C2 at the unmeasured library access point. *)
Lemma C2_witness :
  In (score_row 1 1 (mk_row library_ap None))
     (get_nearby_access_points db_unmeasured 1 1 1000) /\
  quality_score (score_row 1 1 (mk_row library_ap None)) = 25.
Proof.
  destruct (C2_nearby_located_metricless_included db_unmeasured 1 1 1000) as [_ H].
  apply H.
  - left. reflexivity.
  - simpl. tauto.
  - reflexivity.
  - reflexivity.
  - rewrite (distance_to_same _ 1 1) by reflexivity. apply Q2R_nonneg. discriminate.
Defined.

Lemma nearby_negative_radius : forall db u v radius,
  radius < 0 -> get_nearby_access_points db u v radius = [].
Proof.
  intros db u v radius Hr.
  destruct (get_nearby_access_points db u v radius) as [|c l] eqn:E; [reflexivity|].
  exfalso. assert (Hc : In c (get_nearby_access_points db u v radius))
    by (rewrite E; left; reflexivity).
  apply nearby_In in Hc as [r [_ Hs]].
  apply score_if_within_Some in Hs as [_ [_ [Hd _]]].
  pose proof (distance_to_nonneg u v r).
  apply Qlt_Rlt in Hr. replace (Q2R 0) with 0%R in Hr by (unfold Q2R; simpl; lra).
  lra.
Qed.

Lemma py_slice_to_negative : forall {A} (l : list A) k,
  (0 < k)%Z -> py_slice_to l (- k) = firstn (List.length l - Z.to_nat k) l.
Proof.
  intros A l k Hk. unfold py_slice_to.
  destruct (0 <=? - k)%Z eqn:E; [apply Z.leb_le in E; lia|].
  f_equal. lia.
Qed.

Lemma filter_length_split : forall {A} (f : A -> bool) l,
  (List.length (filter (fun x => negb (f x)) l) + List.length (filter f l))%nat
  = List.length l.
Proof.
  intros A f l. induction l as [|x l IH]; simpl; [reflexivity|].
  destruct (f x); simpl; lia.
Qed.

(** The access point at (1, 1) with its metric, as the resolver sees it. *)
Definition measured_row : row := mk_row library_ap (Some library_metric).

Lemma current_measured : forall radius, 0 <= radius ->
  get_current_ap_status db_measured 1 1 radius = Some (score_row 1 1 measured_row).
Proof.
  intros radius Hr. unfold get_current_ap_status.
  rewrite located_rows_measured. cbn [order_by_manhattan_limit1 closest_from].
  apply score_if_within_intro; [reflexivity|reflexivity|].
  rewrite (distance_to_same _ 1 1) by reflexivity. apply Q2R_nonneg. exact Hr.
Qed.

Lemma nearby_measured : forall radius, 0 <= radius ->
  get_nearby_access_points db_measured 1 1 radius = [score_row 1 1 measured_row].
Proof.
  intros radius Hr. unfold get_nearby_access_points.
  rewrite located_rows_measured. cbn [flat_map].
  rewrite score_if_within_intro; [reflexivity|reflexivity|reflexivity|].
  rewrite (distance_to_same _ 1 1) by reflexivity. apply Q2R_nonneg. exact Hr.
Qed.

(** An access point stored, and queried, at latitude 100 and longitude 200. *)
Definition off_range_ap : access_point :=
  {| ap_id := 7; ap_ap_name := "OUT-AP"; ap_building := "Annex"; ap_floor := 0;
     ap_room_number := "0"; ap_latitude := Some 100; ap_longitude := Some 200 |}.

Definition db_off_range : database :=
  {| access_points := [off_range_ap]; performance_metrics := [] |}.

(** C3 (as stated, refuted): a latitude of 100 and a longitude of 200 are
    not rejected; the nearby search returns a normally-shaped, non-empty
    list for them. *)
Lemma C3_counterexample :
  In (score_row 100 200 (mk_row off_range_ap None))
     (get_nearby_access_points db_off_range 100 200 1000).
Proof.
  apply nearby_In. exists (mk_row off_range_ap None). split.
  - left. reflexivity.
  - apply score_if_within_intro; [reflexivity|reflexivity|].
    rewrite (distance_to_same _ 100 200) by reflexivity.
    apply Q2R_nonneg. discriminate.
Qed.

(** C3 (amended): no input is validated and no input error exists; a
    negative radius makes the nearby search return the empty list, and a
    negative limit -k makes the recommendation list the ranked,
    current-excluded list without its last k entries (Python slicing). *)
Theorem C3_no_validation_negative_radius_limit :
  (forall db user_lat user_lon radius, radius < 0 ->
     get_nearby_access_points db user_lat user_lon radius = []) /\
  (forall db user_lat user_lon radius k, (0 < k)%Z ->
     let others := exclude_current (get_current_ap_status db user_lat user_lon 50)
                     (get_nearby_access_points db user_lat user_lon radius) in
     recommendations (generate_recommendations db user_lat user_lon radius (- k))
     = firstn (List.length others - Z.to_nat k) others).
Proof.
  split.
  - apply nearby_negative_radius.
  - intros db u v radius k Hk others. unfold generate_recommendations. simpl.
    apply py_slice_to_negative. exact Hk.
Qed.

(** Witness of C3: radius -1 and limit -1 at the measured library access
    point. *)
Lemma C3_witness :
  get_nearby_access_points db_measured 1 1 (-1) = [] /\
  recommendations (generate_recommendations db_measured 1 1 1000 (-1))
  = firstn (List.length (exclude_current (get_current_ap_status db_measured 1 1 50)
                           (get_nearby_access_points db_measured 1 1 1000)) - 1)
      (exclude_current (get_current_ap_status db_measured 1 1 50)
         (get_nearby_access_points db_measured 1 1 1000)).
Proof.
  destruct C3_no_validation_negative_radius_limit as [H1 H2]. split.
  - apply H1. reflexivity.
  - apply (H2 db_measured 1 1 1000 1%Z). lia.
Defined.

(** C4 (as stated, refuted): with the current access point inside the
    radius, the count leaves it out: one candidate is in radius, the count
    is 0. *)
Lemma C4_counterexample :
  List.length (get_nearby_access_points db_measured 1 1 1000) = 1%nat /\
  total_nearby_aps (generate_recommendations db_measured 1 1 1000 5) = 0%nat.
Proof.
  split.
  - rewrite nearby_measured by discriminate. reflexivity.
  - unfold generate_recommendations.
    rewrite current_measured, nearby_measured by discriminate. reflexivity.
Qed.

(** C4 (amended): [total_nearby_aps] counts the candidates in radius whose
    id differs from the resolved current access point's; added to the
    number of candidates carrying that id it gives all candidates in radius,
    and with no current access point it is the number of all of them. *)
Theorem C4_total_excludes_current : forall db user_lat user_lon radius n,
  let res := generate_recommendations db user_lat user_lon radius n in
  let all := get_nearby_access_points db user_lat user_lon radius in
  match current_ap res with
  | None => total_nearby_aps res = List.length all
  | Some cur =>
      (total_nearby_aps res +
       List.length (filter (fun ap => Z.eqb (id (c_row ap)) (id (c_row cur))) all))%nat
      = List.length all
  end.
Proof.
  intros db u v radius n res all. subst res all. unfold generate_recommendations. simpl.
  destruct (get_current_ap_status db u v 50) as [cur|]; simpl; [|reflexivity].
  apply (filter_length_split (fun ap => Z.eqb (id (c_row ap)) (id (c_row cur)))).
Qed.

(** ** Bounds of the quality score *)

(** An optional measurement is non-negative when present. *)
Definition opt_nonneg (o : option Q) : Prop :=
  match o with Some q => 0 <= q | None => True end.

Definition opt_nonneg_Z (o : option Z) : Prop :=
  match o with Some z => (0 <= z)%Z | None => True end.

Lemma py_or_nonneg : forall o d, opt_nonneg o -> 0 <= d -> 0 <= py_or o d.
Proof.
  intros [q|] d Ho Hd; simpl in *; [|exact Hd].
  destruct (Qeq_bool q 0); assumption.
Qed.

Lemma py_or_Z_nonneg : forall o d, opt_nonneg_Z o -> (0 <= d)%Z -> (0 <= py_or_Z o d)%Z.
Proof.
  intros [z|] d Ho Hd; simpl in *; [|exact Hd].
  destruct (Z.eqb z 0); assumption.
Qed.

Lemma min_100_bounds : forall a, 0 <= a -> 0 <= Qmin a 100 /\ Qmin a 100 <= 100.
Proof.
  intros a Ha. destruct (Q.min_spec_le a 100) as [[H1 H2]|[H1 H2]];
    rewrite H2; split; Lqa.lra.
Qed.

Lemma max_0_bounds : forall a, a <= 100 -> 0 <= Qmax a 0 /\ Qmax a 0 <= 100.
Proof.
  intros a Ha. destruct (Q.max_spec_le a 0) as [[H1 H2]|[H1 H2]];
    rewrite H2; split; Lqa.lra.
Qed.

Lemma min_latency_ms_bounds : forall o,
  opt_nonneg o -> 0 <= min_latency_ms (latency_or_inf o) <= 1000.
Proof.
  intros [q|] Ho; simpl in *; [|split; discriminate].
  destruct (Qeq_bool q 0); simpl; [split; discriminate|].
  destruct (Q.min_spec_le (q * 1000) 1000) as [[H1 H2]|[H1 H2]];
    rewrite H2; split; Lqa.lra.
Qed.

Lemma round2_bounds : forall q, 0 <= q <= 100 -> 0 <= round2 q <= 100.
Proof.
  intros q [H0 H100]. unfold round2. rewrite Qred_correct.
  set (x := q * 100).
  assert (Hx0 : 0 <= x) by (unfold x; Lqa.lra).
  assert (Hx1 : x <= 10000) by (unfold x; Lqa.lra).
  pose proof (Qfloor_le x) as Hf1. pose proof (Qlt_floor x) as Hf2.
  assert (Hf0 : (0 <= Qfloor x)%Z)
    by (change 0%Z with (Qfloor 0); apply Qfloor_resp_le; exact Hx0).
  assert (Hfm : (Qfloor x <= 10000)%Z).
  { rewrite Zle_Qle. change (inject_Z 10000) with (10000 : Q). eapply Qle_trans; [exact Hf1|exact Hx1]. }
  assert (Hr : (0 <= round_half_even x <= 10000)%Z).
  { unfold round_half_even.
    destruct (Z.eq_dec (Qfloor x) 10000) as [E|E].
    - rewrite E in *. change (inject_Z 10000) with (10000 : Q) in *.
      assert (Hlt : x - 10000 < 1 # 2) by Lqa.lra.
      rewrite (proj1 (Qlt_alt _ _) Hlt). lia.
    - destruct (Qcompare _ _); [destruct (Z.even _)|..]; lia. }
  unfold Qle; simpl; lia.
Qed.

Lemma weighted_sum_bounds : forall a b c d e,
  0 <= a <= 100 -> 0 <= b <= 100 -> 0 <= c <= 100 -> 0 <= d <= 100 ->
  0 <= e <= 100 ->
  0 <= (35 # 100) * a + (15 # 100) * b + (2 # 10) * c + (2 # 10) * d + (1 # 10) * e <= 100.
Proof. intros. split; Lqa.lra. Qed.

Lemma norm_download_bounds : forall o, opt_nonneg o ->
  0 <= Qmin (py_or o 0 / 100 * 100) 100 <= 100.
Proof.
  intros o Ho. apply min_100_bounds.
  assert (E : py_or o 0 / 100 * 100 == py_or o 0) by field.
  rewrite E. apply py_or_nonneg; [exact Ho|discriminate].
Qed.

Lemma norm_upload_bounds : forall o, opt_nonneg o ->
  0 <= Qmin (py_or o 0 / 50 * 100) 100 <= 100.
Proof.
  intros o Ho. apply min_100_bounds.
  assert (E : py_or o 0 / 50 * 100 == 2 * py_or o 0) by field.
  rewrite E. pose proof (py_or_nonneg o 0 Ho ltac:(discriminate)). Lqa.lra.
Qed.

Lemma norm_latency_bounds : forall o, opt_nonneg o ->
  0 <= Qmax ((1000 - min_latency_ms (latency_or_inf o)) / 10) 0 <= 100.
Proof.
  intros o Ho. apply max_0_bounds.
  pose proof (min_latency_ms_bounds o Ho) as [H1 H2].
  assert (E : (1000 - min_latency_ms (latency_or_inf o)) / 10
              == 100 - (1 # 10) * min_latency_ms (latency_or_inf o)) by field.
  rewrite E. Lqa.lra.
Qed.

Lemma norm_users_bounds : forall o, opt_nonneg_Z o ->
  0 <= Qmax (100 - inject_Z (Z.min (py_or_Z o 0) 50) * (3 # 2)) 0 <= 100.
Proof.
  intros o Ho. apply max_0_bounds.
  pose proof (py_or_Z_nonneg o 0 Ho (Z.le_refl 0)) as Hu.
  assert (Hm : 0 <= inject_Z (Z.min (py_or_Z o 0) 50)).
  { change 0 with (inject_Z 0). rewrite <- Zle_Qle. lia. }
  Lqa.lra.
Qed.

Lemma norm_signal_bounds : forall s, 0 <= Qmax 0 (Qmin 100 s) <= 100.
Proof.
  intros s. destruct (Q.max_spec_le 0 (Qmin 100 s)) as [[H1 H2]|[H1 H2]];
    rewrite H2; split; try Lqa.lra.
  apply Q.le_min_l.
Qed.

(** C5: for every record whose download, upload, latency and connected
    users are non-negative or absent (signal strength arbitrary or absent),
    the quality score lies in [0, 100]. *)
Theorem C5_score_in_0_100 : forall data,
  opt_nonneg (download_speed data) -> opt_nonneg (upload_speed data) ->
  opt_nonneg (latency data) -> opt_nonneg_Z (connected_users data) ->
  0 <= calculate_quality_score data <= 100.
Proof.
  intros data Hd Hu Hl Hc. unfold calculate_quality_score.
  apply round2_bounds, weighted_sum_bounds.
  - apply norm_download_bounds. exact Hd.
  - apply norm_upload_bounds. exact Hu.
  - apply norm_latency_bounds. exact Hl.
  - apply norm_users_bounds. exact Hc.
  - apply norm_signal_bounds.
Qed.

(** Witness of C5 at the measured library access point. *)
Lemma C5_witness : 0 <= calculate_quality_score measured_row <= 100.
Proof.
  apply C5_score_in_0_100; vm_compute; congruence.
Defined.

(** ** Monotonicity of the score at the value 0 *)

Definition with_latency (r : row) (l : option Q) : row :=
  {| id := id r; ap_name := ap_name r; building := building r; floor := floor r;
     room_number := room_number r; latitude := latitude r; longitude := longitude r;
     download_speed := download_speed r; upload_speed := upload_speed r;
     latency := l; connected_users := connected_users r;
     signal_strength := signal_strength r; timestamp := timestamp r |}.

Definition with_signal (r : row) (s : option Q) : row :=
  {| id := id r; ap_name := ap_name r; building := building r; floor := floor r;
     room_number := room_number r; latitude := latitude r; longitude := longitude r;
     download_speed := download_speed r; upload_speed := upload_speed r;
     latency := latency r; connected_users := connected_users r;
     signal_strength := s; timestamp := timestamp r |}.

(** C6 (code defect): [latency or float('inf')] and [signal_strength or -80]
    replace a measured 0 by the absent-field default. Raising the latency
    from 0 s to 0.5 s raises the score from 25 to 35, and lowering the
    signal from 0 dBm to -1 dBm raises it from 25 to 30. *)
Theorem C6_zero_measurement_breaks_monotonicity :
  calculate_quality_score (with_latency all_defaults_record (Some 0)) = 25 /\
  calculate_quality_score (with_latency all_defaults_record (Some (1 # 2))) = 35 /\
  calculate_quality_score (with_signal all_defaults_record (Some 0)) = 25 /\
  calculate_quality_score (with_signal all_defaults_record (Some (-1))) = 30.
Proof. repeat split; reflexivity. Qed.

(** ** Current-location resolver *)

Lemma Qlt_bool_true : forall x y, Qlt_bool x y = true -> x < y.
Proof.
  intros x y H. unfold Qlt_bool in H. apply negb_true_iff in H.
  apply Qnot_le_lt. intros Hle. apply Qle_bool_iff in Hle. congruence.
Qed.

Lemma Qlt_bool_false : forall x y, Qlt_bool x y = false -> y <= x.
Proof.
  intros x y H. unfold Qlt_bool in H. apply negb_false_iff in H.
  apply Qle_bool_iff. exact H.
Qed.

Lemma closest_from_In : forall u v rs best,
  In (closest_from u v best rs) (best :: rs).
Proof.
  intros u v rs. induction rs as [|r rs IH]; intros best; simpl.
  - left. reflexivity.
  - destruct (Qlt_bool _ _).
    + destruct (IH r) as [H|H]; auto.
    + destruct (IH best) as [H|H]; auto.
Qed.

Lemma closest_from_min : forall u v rs best r',
  In r' (best :: rs) -> manhattan u v (closest_from u v best rs) <= manhattan u v r'.
Proof.
  intros u v rs. induction rs as [|r rs IH]; intros best r' Hin; simpl.
  - destruct Hin as [<-|[]]. apply Qle_refl.
  - destruct (Qlt_bool (manhattan u v r) (manhattan u v best)) eqn:E.
    + apply Qlt_bool_true in E.
      destruct Hin as [<-|Hin].
      * apply Qle_trans with (manhattan u v r); [apply IH; left; reflexivity|].
        apply Qlt_le_weak. exact E.
      * apply IH. exact Hin.
    + apply Qlt_bool_false in E.
      destruct Hin as [<-|[<-|Hin]].
      * apply IH. left. reflexivity.
      * apply Qle_trans with (manhattan u v best); [apply IH; left; reflexivity|exact E].
      * apply IH. right. exact Hin.
Qed.

Lemma order_by_manhattan_limit1_spec : forall u v rs r,
  order_by_manhattan_limit1 u v rs = Some r ->
  In r rs /\ forall r', In r' rs -> manhattan u v r <= manhattan u v r'.
Proof.
  intros u v [|r0 rs] r H; [discriminate|]. injection H as <-. split.
  - apply closest_from_In.
  - intros r' Hin. apply closest_from_min. exact Hin.
Qed.

(** C7 (as stated, refuted): the resolver also considers access points
    without any metric record; with a single unmeasured access point at the
    user's position it returns that access point, not null. *)
Lemma C7_counterexample :
  performance_metrics db_unmeasured = [] /\
  get_current_ap_status db_unmeasured 1 1 50 = Some (score_row 1 1 (mk_row library_ap None)).
Proof.
  split; [reflexivity|]. unfold get_current_ap_status.
  rewrite located_rows_unmeasured. cbn [order_by_manhattan_limit1 closest_from].
  apply score_if_within_intro; [reflexivity|reflexivity|].
  rewrite (distance_to_same _ 1 1) by reflexivity. apply Q2R_nonneg. discriminate.
Qed.

(** C7 (amended): among the located rows (both coordinates recorded,
    access points without metric included, scored with defaults) the
    resolver selects one of least Manhattan distance |dlat| + |dlon|; it
    returns that row scored only if its haversine distance is at most the
    radius, and null when the distance exceeds the radius, whatever other
    access points lie within it. *)
Theorem C7_current_is_manhattan_closest_within_radius : forall db user_lat user_lon radius,
  match order_by_manhattan_limit1 user_lat user_lon (located_rows db) with
  | None => get_current_ap_status db user_lat user_lon radius = None
  | Some r =>
      In r (located_rows db) /\
      (forall r', In r' (located_rows db) ->
         manhattan user_lat user_lon r <= manhattan user_lat user_lon r') /\
      (forall c, get_current_ap_status db user_lat user_lon radius = Some c ->
         c = score_row user_lat user_lon r /\
         (distance_to user_lat user_lon r <= Q2R radius)%R) /\
      ((Q2R radius < distance_to user_lat user_lon r)%R ->
         get_current_ap_status db user_lat user_lon radius = None)
  end.
Proof.
  intros db u v radius. unfold get_current_ap_status.
  destruct (order_by_manhattan_limit1 u v (located_rows db)) as [r|] eqn:E;
    [|reflexivity].
  destruct (order_by_manhattan_limit1_spec _ _ _ _ E) as [Hin Hmin].
  split; [exact Hin|]. split; [exact Hmin|]. split.
  - intros c Hc. apply score_if_within_Some in Hc as [_ [_ [Hd ->]]]. auto.
  - intros Hlt. destruct (score_if_within u v radius r) as [c|] eqn:Hs; [|reflexivity].
    apply score_if_within_Some in Hs as [_ [_ [Hd _]]]. lra.
Qed.

(** Witness of C7 at the measured library access point. *)
Lemma C7_witness :
  get_current_ap_status db_measured 1 1 50 = Some (score_row 1 1 measured_row) /\
  (distance_to 1 1 measured_row <= Q2R 50)%R.
Proof.
  assert (Hc : get_current_ap_status db_measured 1 1 50 = Some (score_row 1 1 measured_row))
    by (apply current_measured; discriminate).
  pose proof (C7_current_is_manhattan_closest_within_radius db_measured 1 1 50) as H.
  rewrite located_rows_measured in H. cbn [order_by_manhattan_limit1 closest_from] in H.
  destruct H as [_ [_ [H _]]]. split; [exact Hc|]. apply (H _ Hc).
Defined.

(** ** Advice message *)

Lemma Qlt_bool_iff : forall x y, Qlt_bool x y = true <-> x < y.
Proof.
  intros x y. split; [apply Qlt_bool_true|].
  intros H. destruct (Qlt_bool x y) eqn:E; [reflexivity|].
  apply Qlt_bool_false in E. exfalso. apply (Qlt_not_le _ _ H E).
Qed.

Lemma Qlt_bool_false_iff : forall x y, Qlt_bool x y = false <-> y <= x.
Proof.
  intros x y. split; [apply Qlt_bool_false|].
  intros H. destruct (Qlt_bool x y) eqn:E; [|reflexivity].
  apply Qlt_bool_true in E. exfalso. apply (Qlt_not_le _ _ E H).
Qed.

(** C8: the advisory message follows the decision table, top to bottom. *)
Theorem C8_advice_decision_table :
  (forall recs, _generate_advice_message None recs = CouldNotDetect) /\
  (forall cur best rest, quality_score cur < 40 ->
     _generate_advice_message (Some cur) (best :: rest)
     = PoorBestNearby (status cur) (building (c_row best)) (floor (c_row best))
         (ap_name (c_row best)) (py_or (download_speed (c_row best)) 0)) /\
  (forall cur, quality_score cur < 40 ->
     _generate_advice_message (Some cur) [] = PoorNoBetter (status cur)) /\
  (forall cur best rest, 40 <= quality_score cur < 60 ->
     quality_score cur < quality_score best ->
     _generate_advice_message (Some cur) (best :: rest)
     = MediumBetterAt (status cur) (building (c_row best)) (floor (c_row best))
         (ap_name (c_row best))) /\
  (forall cur best rest, 40 <= quality_score cur < 60 ->
     quality_score best <= quality_score cur ->
     _generate_advice_message (Some cur) (best :: rest) = MediumAmongBest (status cur)) /\
  (forall cur, 40 <= quality_score cur < 60 ->
     _generate_advice_message (Some cur) [] = MediumLikelyBest (status cur)) /\
  (forall cur recs, 60 <= quality_score cur ->
     _generate_advice_message (Some cur) recs = EnjoyFast (status cur)).
Proof.
  repeat split.
  - intros cur best rest H. simpl.
    rewrite (proj2 (Qlt_bool_iff _ _) H). reflexivity.
  - intros cur H. simpl. rewrite (proj2 (Qlt_bool_iff _ _) H). reflexivity.
  - intros cur best rest [H1 H2] H3. simpl.
    rewrite (proj2 (Qlt_bool_false_iff _ _) H1), (proj2 (Qlt_bool_iff _ _) H2),
      (proj2 (Qlt_bool_iff _ _) H3). reflexivity.
  - intros cur best rest [H1 H2] H3. simpl.
    rewrite (proj2 (Qlt_bool_false_iff _ _) H1), (proj2 (Qlt_bool_iff _ _) H2),
      (proj2 (Qlt_bool_false_iff _ _) H3). reflexivity.
  - intros cur [H1 H2]. simpl.
    rewrite (proj2 (Qlt_bool_false_iff _ _) H1), (proj2 (Qlt_bool_iff _ _) H2). reflexivity.
  - intros cur recs H. simpl.
    assert (H1 : 40 <= quality_score cur) by (apply Qle_trans with 60; [discriminate|exact H]).
    rewrite (proj2 (Qlt_bool_false_iff _ _) H1), (proj2 (Qlt_bool_false_iff _ _) H).
    reflexivity.
Qed.

(** The spec's example: current score 35 ("Poor"), one recommendation with
    score 70. *)
Definition poor_current : candidate :=
  {| c_row := mk_row off_range_ap None; c_distance := 0%R;
     quality_score := 35; status := "Poor" |}.

Definition good_recommendation : candidate :=
  {| c_row := measured_row; c_distance := 0%R; quality_score := 70; status := "Good" |}.

(** Witness of C8 at the spec's example: the message names the library
    access point and its 40 Mbps download. *)
Lemma C8_witness :
  _generate_advice_message (Some poor_current) [good_recommendation]
  = PoorBestNearby "Poor" "Library" 2 "LIB-AP-1" 40.
Proof.
  destruct C8_advice_decision_table as [_ [H _]].
  rewrite (H poor_current good_recommendation []); reflexivity.
Defined.

(** ** Nearby search *)

Lemma py_truthy_nonzero : forall o, py_truthy o = true -> exists q, o = Some q /\ ~ q == 0.
Proof.
  intros [q|] H; simpl in H; [|discriminate].
  exists q. split; [reflexivity|]. intros Hq.
  apply Qeq_bool_iff in Hq. rewrite Hq in H. discriminate.
Qed.

(** C9: every candidate of the nearby search is at haversine distance at
    most the radius from the user. *)
Theorem C9_nearby_within_radius : forall db user_lat user_lon radius c,
  In c (get_nearby_access_points db user_lat user_lon radius) ->
  exists lat lon, latitude (c_row c) = Some lat /\ longitude (c_row c) = Some lon /\
    (haversine_distance (Q2R user_lat) (Q2R user_lon) (Q2R lat) (Q2R lon) <= Q2R radius)%R.
Proof.
  intros db u v radius c Hc. apply nearby_In in Hc as [r [_ Hs]].
  apply score_if_within_Some in Hs as [Hlat [Hlon [Hd ->]]]. simpl.
  apply py_truthy_nonzero in Hlat as [lat [Elat _]].
  apply py_truthy_nonzero in Hlon as [lon [Elon _]].
  exists lat, lon. split; [exact Elat|]. split; [exact Elon|].
  unfold distance_to in Hd. rewrite Elat, Elon in Hd. exact Hd.
Qed.

(** Witness of C9 at the measured library access point. *)
Lemma C9_witness :
  In (score_row 1 1 measured_row) (get_nearby_access_points db_measured 1 1 1000) /\
  exists lat lon, latitude measured_row = Some lat /\ longitude measured_row = Some lon /\
    (haversine_distance (Q2R 1) (Q2R 1) (Q2R lat) (Q2R lon) <= Q2R 1000)%R.
Proof.
  assert (Hin : In (score_row 1 1 measured_row)
                  (get_nearby_access_points db_measured 1 1 1000))
    by (rewrite nearby_measured by discriminate; left; reflexivity).
  split; [exact Hin|].
  apply (C9_nearby_within_radius db_measured 1 1 1000 (score_row 1 1 measured_row) Hin).
Defined.

(** An access point on the equator: stored latitude 0. *)
Definition equator_ap : access_point :=
  {| ap_id := 3; ap_ap_name := "EQ-AP"; ap_building := "Field Lab"; ap_floor := 1;
     ap_room_number := "1"; ap_latitude := Some 0; ap_longitude := Some 1 |}.

Definition db_equator : database :=
  {| access_points := [equator_ap];
     performance_metrics := [{| pm_ap_id := 3; pm_download_speed := Some 80;
                                pm_upload_speed := Some 40; pm_latency := Some (1 # 100);
                                pm_connected_users := Some 2%Z;
                                pm_signal_strength := Some (-40); pm_timestamp := 5 |}] |}.

Example equator_not_nearby : get_nearby_access_points db_equator 0 1 1000 = [].
Proof. reflexivity. Qed.

Example equator_not_current : get_current_ap_status db_equator 0 1 50 = None.
Proof. reflexivity. Qed.

(** C10: a coordinate equal to 0 is treated like an absent one: every
    candidate of the nearby search, and the resolved current access point,
    has both stored coordinates present and non-zero. *)
Theorem C10_zero_coordinate_never_returned : forall db user_lat user_lon radius c,
  (In c (get_nearby_access_points db user_lat user_lon radius) \/
   get_current_ap_status db user_lat user_lon radius = Some c) ->
  exists lat lon, latitude (c_row c) = Some lat /\ ~ lat == 0 /\
    longitude (c_row c) = Some lon /\ ~ lon == 0.
Proof.
  intros db u v radius c [Hc|Hc].
  - apply nearby_In in Hc as [r [_ Hs]].
    apply score_if_within_Some in Hs as [Hlat [Hlon [_ ->]]]. simpl.
    apply py_truthy_nonzero in Hlat as [lat [Elat Nlat]].
    apply py_truthy_nonzero in Hlon as [lon [Elon Nlon]].
    exists lat, lon. auto.
  - unfold get_current_ap_status in Hc.
    destruct (order_by_manhattan_limit1 u v (located_rows db)) as [r|]; [|discriminate].
    apply score_if_within_Some in Hc as [Hlat [Hlon [_ ->]]]. simpl.
    apply py_truthy_nonzero in Hlat as [lat [Elat Nlat]].
    apply py_truthy_nonzero in Hlon as [lon [Elon Nlon]].
    exists lat, lon. auto.
Qed.

(** Witness of C10 at the measured library access point, resolved as the
    current location. *)
Lemma C10_witness :
  get_current_ap_status db_measured 1 1 50 = Some (score_row 1 1 measured_row) /\
  exists lat lon, latitude measured_row = Some lat /\ ~ lat == 0 /\
    longitude measured_row = Some lon /\ ~ lon == 0.
Proof.
  assert (Hc : get_current_ap_status db_measured 1 1 50 = Some (score_row 1 1 measured_row))
    by (apply current_measured; discriminate).
  split; [exact Hc|].
  apply (C10_zero_coordinate_never_returned db_measured 1 1 50 (score_row 1 1 measured_row)).
  right. exact Hc.
Defined.

(** ** Further properties of the engine *)

(** *** Rounding *)

Lemma round_half_even_spec : forall q,
  (round_half_even q = Qfloor q /\
   (q - inject_Z (Qfloor q) < 1 # 2 \/
    (q - inject_Z (Qfloor q) == 1 # 2 /\ Z.even (Qfloor q) = true))) \/
  (round_half_even q = (Qfloor q + 1)%Z /\
   (1 # 2 < q - inject_Z (Qfloor q) \/
    (q - inject_Z (Qfloor q) == 1 # 2 /\ Z.even (Qfloor q) = false))).
Proof.
  intros q. unfold round_half_even.
  destruct (Qcompare (q - inject_Z (Qfloor q)) (1 # 2)) eqn:E.
  - apply Qeq_alt in E. destruct (Z.even (Qfloor q)) eqn:Ev; auto.
  - apply Qlt_alt in E. auto.
  - apply Qgt_alt in E. auto.
Qed.

Lemma round_half_even_mono : forall x y, x <= y -> (round_half_even x <= round_half_even y)%Z.
Proof.
  intros x y Hxy. pose proof (Qfloor_resp_le _ _ Hxy) as Hf.
  destruct (round_half_even_spec x) as [[Ex Cx]|[Ex Cx]];
    destruct (round_half_even_spec y) as [[Ey Cy]|[Ey Cy]]; rewrite Ex, Ey; try lia.
  destruct (Z.eq_dec (Qfloor x) (Qfloor y)) as [Eq|Ne]; [|lia].
  exfalso. rewrite Eq in Cx. set (a := inject_Z (Qfloor y)) in *.
  destruct Cx as [Cx|[Cx Px]]; destruct Cy as [Cy|[Cy Py]]; try congruence; Lqa.lra.
Qed.

Lemma round2_mono : forall x y, x <= y -> round2 x <= round2 y.
Proof.
  intros x y Hxy. unfold round2. rewrite !Qred_correct.
  assert (H : (round_half_even (x * 100) <= round_half_even (y * 100))%Z).
  { apply round_half_even_mono. Lqa.lra. }
  unfold Qle; simpl. lia.
Qed.

Lemma round2_compat : forall x y, x == y -> round2 x = round2 y.
Proof.
  intros x y Hxy. unfold round2, round_half_even.
  assert (H100 : x * 100 == y * 100) by (rewrite Hxy; reflexivity).
  rewrite (Qfloor_comp _ _ H100).
  assert (Hd : x * 100 - inject_Z (Qfloor (y * 100)) == y * 100 - inject_Z (Qfloor (y * 100)))
    by (rewrite H100; reflexivity).
  rewrite (Qcompare_comp _ _ Hd _ _ (Qeq_refl (1 # 2))). reflexivity.
Qed.

(** *** Status bands *)

(** The position of a status label in the order Poor < Medium < Good <
    Excellent. *)
Definition status_rank (s : string) : nat :=
  if String.eqb s "Excellent" then 3
  else if String.eqb s "Good" then 2
  else if String.eqb s "Medium" then 1
  else 0.

(** [get_status_from_score] is monotone: a higher score never gets a lower
    label. *)
Lemma Qle_bool_false_lt : forall x y, Qle_bool x y = false -> y < x.
Proof.
  intros x y H. apply Qnot_le_lt. intros Hle. apply Qle_bool_iff in Hle. congruence.
Qed.

Theorem get_status_from_score_monotone : forall s1 s2,
  s1 <= s2 ->
  (status_rank (get_status_from_score s1) <= status_rank (get_status_from_score s2))%nat.
Proof.
  intros s1 s2 H. unfold get_status_from_score.
  destruct (Qle_bool 80 s1) eqn:A1; destruct (Qle_bool 80 s2) eqn:A2;
  destruct (Qle_bool 60 s1) eqn:B1; destruct (Qle_bool 60 s2) eqn:B2;
  destruct (Qle_bool 40 s1) eqn:C1; destruct (Qle_bool 40 s2) eqn:C2;
  unfold status_rank; simpl; try lia;
  repeat match goal with
  | Hb : Qle_bool _ _ = true |- _ => apply Qle_bool_iff in Hb
  | Hb : Qle_bool _ _ = false |- _ => apply Qle_bool_false_lt in Hb
  end;
  exfalso; Lqa.lra.
Qed.

Lemma get_status_from_score_monotone_witness :
  (status_rank (get_status_from_score 35) <= status_rank (get_status_from_score 70))%nat.
Proof. apply get_status_from_score_monotone. discriminate. Defined.

(** *** Monotonicity of the quality score *)

Definition with_download (r : row) (d : option Q) : row :=
  {| id := id r; ap_name := ap_name r; building := building r; floor := floor r;
     room_number := room_number r; latitude := latitude r; longitude := longitude r;
     download_speed := d; upload_speed := upload_speed r;
     latency := latency r; connected_users := connected_users r;
     signal_strength := signal_strength r; timestamp := timestamp r |}.

Definition with_upload (r : row) (u : option Q) : row :=
  {| id := id r; ap_name := ap_name r; building := building r; floor := floor r;
     room_number := room_number r; latitude := latitude r; longitude := longitude r;
     download_speed := download_speed r; upload_speed := u;
     latency := latency r; connected_users := connected_users r;
     signal_strength := signal_strength r; timestamp := timestamp r |}.

Definition with_users (r : row) (n : option Z) : row :=
  {| id := id r; ap_name := ap_name r; building := building r; floor := floor r;
     room_number := room_number r; latitude := latitude r; longitude := longitude r;
     download_speed := download_speed r; upload_speed := upload_speed r;
     latency := latency r; connected_users := n;
     signal_strength := signal_strength r; timestamp := timestamp r |}.

Lemma py_or_zero_default : forall a, py_or (Some a) 0 == a.
Proof.
  intros a. simpl. destruct (Qeq_bool a 0) eqn:E; [|reflexivity].
  apply Qeq_bool_iff in E. rewrite E. reflexivity.
Qed.

Lemma py_or_Z_zero_default : forall a, py_or_Z (Some a) 0 = a.
Proof.
  intros a. simpl. destruct (Z.eqb a 0) eqn:E; [|reflexivity].
  apply Z.eqb_eq in E. symmetry. exact E.
Qed.

Lemma py_or_nonzero : forall a d, ~ a == 0 -> py_or (Some a) d = a.
Proof.
  intros a d Ha. simpl. destruct (Qeq_bool a 0) eqn:E; [|reflexivity].
  apply Qeq_bool_iff in E. contradiction.
Qed.

Lemma min_le_compat_both : forall a b c, a <= b -> Qmin a c <= Qmin b c.
Proof. intros. apply Q.min_le_compat_r. assumption. Qed.

Lemma max_le_compat_both : forall a b c, a <= b -> Qmax a c <= Qmax b c.
Proof. intros. apply Q.max_le_compat_r. assumption. Qed.

(** The score never decreases when the download throughput grows, the other
    fields fixed; a measured 0 and the default 0 agree here. *)
Theorem score_monotone_download : forall r a b, a <= b ->
  calculate_quality_score (with_download r (Some a))
  <= calculate_quality_score (with_download r (Some b)).
Proof.
  intros r a b Hab. unfold calculate_quality_score.
  cbn [download_speed upload_speed latency connected_users signal_strength
       with_download with_upload with_users with_latency with_signal].
  apply round2_mono.
  assert (H : Qmin (py_or (Some a) 0 / 100 * 100) 100
              <= Qmin (py_or (Some b) 0 / 100 * 100) 100).
  { apply min_le_compat_both. rewrite !py_or_zero_default.
    assert (Ea : a / 100 * 100 == a) by field. assert (Eb : b / 100 * 100 == b) by field.
    rewrite Ea, Eb. exact Hab. }
  Lqa.lra.
Qed.

(** The score never decreases when the upload throughput grows. *)
Theorem score_monotone_upload : forall r a b, a <= b ->
  calculate_quality_score (with_upload r (Some a))
  <= calculate_quality_score (with_upload r (Some b)).
Proof.
  intros r a b Hab. unfold calculate_quality_score.
  cbn [download_speed upload_speed latency connected_users signal_strength
       with_download with_upload with_users with_latency with_signal].
  apply round2_mono.
  assert (H : Qmin (py_or (Some a) 0 / 50 * 100) 100
              <= Qmin (py_or (Some b) 0 / 50 * 100) 100).
  { apply min_le_compat_both. rewrite !py_or_zero_default.
    assert (Ea : a / 50 * 100 == 2 * a) by field. assert (Eb : b / 50 * 100 == 2 * b) by field.
    rewrite Ea, Eb. Lqa.lra. }
  Lqa.lra.
Qed.

(** The score never increases when more users are connected. *)
Theorem score_antitone_users : forall r a b, (a <= b)%Z ->
  calculate_quality_score (with_users r (Some b))
  <= calculate_quality_score (with_users r (Some a)).
Proof.
  intros r a b Hab. unfold calculate_quality_score.
  cbn [download_speed upload_speed latency connected_users signal_strength
       with_download with_upload with_users with_latency with_signal].
  apply round2_mono.
  rewrite !py_or_Z_zero_default.
  assert (H : Qmax (100 - inject_Z (Z.min b 50) * (3 # 2)) 0
              <= Qmax (100 - inject_Z (Z.min a 50) * (3 # 2)) 0).
  { apply max_le_compat_both.
    assert (Hz : inject_Z (Z.min a 50) <= inject_Z (Z.min b 50))
      by (rewrite <- Zle_Qle; lia).
    Lqa.lra. }
  Lqa.lra.
Qed.

(** Among measured, non-zero latencies the score never increases when the
    latency grows (a latency of 0 counts as absent, see C6). *)
Theorem score_antitone_latency_nonzero : forall r a b,
  ~ a == 0 -> ~ b == 0 -> a <= b ->
  calculate_quality_score (with_latency r (Some b))
  <= calculate_quality_score (with_latency r (Some a)).
Proof.
  intros r a b Ha Hb Hab. unfold calculate_quality_score.
  cbn [download_speed upload_speed latency connected_users signal_strength
       with_download with_upload with_users with_latency with_signal].
  apply round2_mono.
  destruct (Qeq_bool a 0) eqn:Ea; [apply Qeq_bool_iff in Ea; contradiction|].
  destruct (Qeq_bool b 0) eqn:Eb; [apply Qeq_bool_iff in Eb; contradiction|].
  unfold latency_or_inf. rewrite Ea, Eb. cbn [min_latency_ms].
  assert (Hm : Qmin (a * 1000) 1000 <= Qmin (b * 1000) 1000)
    by (apply min_le_compat_both; Lqa.lra).
  assert (H : Qmax ((1000 - Qmin (b * 1000) 1000) / 10) 0
              <= Qmax ((1000 - Qmin (a * 1000) 1000) / 10) 0).
  { apply max_le_compat_both.
    assert (E1 : (1000 - Qmin (b * 1000) 1000) / 10 == 100 - (1 # 10) * Qmin (b * 1000) 1000)
      by field.
    assert (E2 : (1000 - Qmin (a * 1000) 1000) / 10 == 100 - (1 # 10) * Qmin (a * 1000) 1000)
      by field.
    rewrite E1, E2. Lqa.lra. }
  Lqa.lra.
Qed.

(** Among measured, non-zero signal strengths the score never decreases when
    the signal grows (0 dBm counts as absent, see C6). *)
Theorem score_monotone_signal_nonzero : forall r a b,
  ~ a == 0 -> ~ b == 0 -> a <= b ->
  calculate_quality_score (with_signal r (Some a))
  <= calculate_quality_score (with_signal r (Some b)).
Proof.
  intros r a b Ha Hb Hab. unfold calculate_quality_score.
  cbn [download_speed upload_speed latency connected_users signal_strength
       with_download with_upload with_users with_latency with_signal].
  apply round2_mono.
  rewrite (py_or_nonzero a (-80) Ha), (py_or_nonzero b (-80) Hb).
  assert (H : Qmax 0 (Qmin 100 (130 + a)) <= Qmax 0 (Qmin 100 (130 + b))).
  { apply Q.max_le_compat_l, Q.min_le_compat_l. Lqa.lra. }
  Lqa.lra.
Qed.

(** Above 100 Mbps download and 50 Mbps upload the throughput no longer
    changes the score. *)
Theorem score_throughput_saturates : forall r a b,
  (100 <= a -> 100 <= b ->
     calculate_quality_score (with_download r (Some a))
     = calculate_quality_score (with_download r (Some b))) /\
  (50 <= a -> 50 <= b ->
     calculate_quality_score (with_upload r (Some a))
     = calculate_quality_score (with_upload r (Some b))).
Proof.
  intros r a b. split; intros Ha Hb; unfold calculate_quality_score;
    cbn [download_speed upload_speed latency connected_users signal_strength
         with_download with_upload];
    apply round2_compat; rewrite !py_or_zero_default.
  - assert (Ea : Qmin (a / 100 * 100) 100 == 100)
      by (apply Q.min_r; assert (E : a / 100 * 100 == a) by field; rewrite E; exact Ha).
    assert (Eb : Qmin (b / 100 * 100) 100 == 100)
      by (apply Q.min_r; assert (E : b / 100 * 100 == b) by field; rewrite E; exact Hb).
    rewrite Ea, Eb. reflexivity.
  - assert (Ea : Qmin (a / 50 * 100) 100 == 100).
    { apply Q.min_r. assert (E : a / 50 * 100 == 2 * a) by field. rewrite E. Lqa.lra. }
    assert (Eb : Qmin (b / 50 * 100) 100 == 100).
    { apply Q.min_r. assert (E : b / 50 * 100 == 2 * b) by field. rewrite E. Lqa.lra. }
    rewrite Ea, Eb. reflexivity.
Qed.

(** *** Haversine distance *)

Section HaversineFacts.

Local Open Scope R_scope.

(** The distance does not depend on which point comes first. *)
Theorem haversine_distance_symmetric : forall lat1 lon1 lat2 lon2,
  haversine_distance lat1 lon1 lat2 lon2 = haversine_distance lat2 lon2 lat1 lon1.
Proof.
  intros. unfold haversine_distance. cbv zeta.
  replace ((radians lat2 - radians lat1) / 2) with (- ((radians lat1 - radians lat2) / 2))
    by field.
  replace ((radians lon2 - radians lon1) / 2) with (- ((radians lon1 - radians lon2) / 2))
    by field.
  rewrite !sin_neg.
  replace ((- sin ((radians lat1 - radians lat2) / 2)) ^ 2 +
           cos (radians lat1) * cos (radians lat2) *
           (- sin ((radians lon1 - radians lon2) / 2)) ^ 2)
    with (sin ((radians lat1 - radians lat2) / 2) ^ 2 +
          cos (radians lat2) * cos (radians lat1) *
          sin ((radians lon1 - radians lon2) / 2) ^ 2) by ring.
  reflexivity.
Qed.

(** No distance exceeds half the Earth's circumference, pi * 6371000 m. *)
Theorem haversine_distance_le_half_circumference : forall lat1 lon1 lat2 lon2,
  haversine_distance lat1 lon1 lat2 lon2 <= PI * 6371000.
Proof.
  intros. unfold haversine_distance. cbv zeta.
  destruct (asin_bound (sqrt (sin ((radians lat2 - radians lat1) / 2) ^ 2 +
              cos (radians lat1) * cos (radians lat2) *
              sin ((radians lon2 - radians lon1) / 2) ^ 2))).
  lra.
Qed.

End HaversineFacts.

(** *** Ordering of the nearby list *)

(** [c1] may come before [c2] in a list sorted by decreasing score. *)
Definition score_desc (c1 c2 : candidate) : Prop := quality_score c2 <= quality_score c1.

Lemma insert_desc_sorted : forall c l,
  StronglySorted score_desc l -> StronglySorted score_desc (insert_desc c l).
Proof.
  intros c l. induction l as [|c' l IH]; intros Hs; simpl.
  - constructor; [constructor|constructor].
  - apply StronglySorted_inv in Hs as [Hs Hf].
    destruct (Qle_bool (quality_score c) (quality_score c')) eqn:E.
    + apply Qle_bool_iff in E. constructor; [apply IH, Hs|].
      apply Forall_forall. intros x Hx.
      eapply Permutation_in in Hx; [|apply insert_desc_perm].
      destruct Hx as [<-|Hx]; [exact E|].
      rewrite Forall_forall in Hf. apply Hf. exact Hx.
    + apply Qle_bool_false_lt in E.
      constructor; [constructor; assumption|].
      constructor; [unfold score_desc; apply Qlt_le_weak; exact E|].
      apply Forall_forall. intros x Hx. rewrite Forall_forall in Hf.
      unfold score_desc in *. apply Qle_trans with (quality_score c');
        [apply Hf; exact Hx|apply Qlt_le_weak; exact E].
Qed.

(** The nearby search returns its candidates by decreasing quality score. *)
Theorem nearby_sorted_by_score : forall db user_lat user_lon radius,
  StronglySorted score_desc (get_nearby_access_points db user_lat user_lon radius).
Proof.
  intros db u v radius. unfold get_nearby_access_points, sort_by_score_desc.
  generalize (flat_map (fun r => match score_if_within u v radius r with
                                 | Some c => [c] | None => [] end) (located_rows db)).
  intros l.
  assert (H : forall acc, StronglySorted score_desc acc ->
              StronglySorted score_desc (fold_left (fun acc c => insert_desc c acc) l acc)).
  { induction l as [|c l IH]; intros acc Hacc; simpl; [exact Hacc|].
    apply IH, insert_desc_sorted, Hacc. }
  apply H. constructor.
Qed.

(** *** Resolver, nearby search and composer together *)

(** The current access point resolved within radius [r] is a candidate of
    the nearby search for every radius at least [r]. *)
Theorem current_in_nearby : forall db user_lat user_lon r radius c,
  get_current_ap_status db user_lat user_lon r = Some c -> r <= radius ->
  In c (get_nearby_access_points db user_lat user_lon radius).
Proof.
  intros db u v r radius c Hc Hr. unfold get_current_ap_status in Hc.
  destruct (order_by_manhattan_limit1 u v (located_rows db)) as [row0|] eqn:E;
    [|discriminate].
  destruct (order_by_manhattan_limit1_spec _ _ _ _ E) as [Hin _].
  apply score_if_within_Some in Hc as [Hlat [Hlon [Hd ->]]].
  apply nearby_In. exists row0. split; [exact Hin|].
  apply score_if_within_intro; [exact Hlat|exact Hlon|].
  apply Rle_trans with (Q2R r); [exact Hd|apply Qle_Rle; exact Hr].
Qed.

Lemma in_firstn_in : forall {A} n (l : list A) x, In x (firstn n l) -> In x l.
Proof.
  intros A n l x H. rewrite <- (firstn_skipn n l). apply in_or_app. left. exact H.
Qed.

Lemma py_slice_to_incl : forall {A} (l : list A) n x, In x (py_slice_to l n) -> In x l.
Proof.
  intros A l n x H. unfold py_slice_to in H.
  destruct (0 <=? n)%Z; eapply in_firstn_in; exact H.
Qed.

(** Every recommendation is a candidate of the nearby search for the
    requested radius and never carries the id of the resolved current
    access point. *)
Theorem recommendations_nearby_not_current : forall db user_lat user_lon radius n c,
  In c (recommendations (generate_recommendations db user_lat user_lon radius n)) ->
  In c (get_nearby_access_points db user_lat user_lon radius) /\
  forall cur, current_ap (generate_recommendations db user_lat user_lon radius n) = Some cur ->
    id (c_row c) <> id (c_row cur).
Proof.
  intros db u v radius n c H. unfold generate_recommendations in *. simpl in *.
  apply py_slice_to_incl in H.
  destruct (get_current_ap_status db u v 50) as [cur0|]; simpl in H.
  - apply filter_In in H as [Hin Hneq]. split; [exact Hin|].
    intros cur Hcur. injection Hcur as <-.
    apply negb_true_iff, Z.eqb_neq in Hneq. exact Hneq.
  - split; [exact H|]. discriminate.
Qed.

Lemma filter_sorted : forall {A} (R : A -> A -> Prop) f l,
  StronglySorted R l -> StronglySorted R (filter f l).
Proof.
  intros A R f l Hs. induction Hs as [|a l Hs IH Hf]; simpl; [constructor|].
  destruct (f a); [|exact IH].
  constructor; [exact IH|].
  rewrite Forall_forall in *. intros x Hx. apply filter_In in Hx as [Hx _]. auto.
Qed.

Lemma firstn_sorted : forall {A} (R : A -> A -> Prop) n l,
  StronglySorted R l -> StronglySorted R (firstn n l).
Proof.
  intros A R n l Hs. revert n. induction Hs as [|a l Hs IH Hf]; intros n;
    destruct n; simpl; try constructor.
  - apply IH.
  - rewrite Forall_forall in *. intros x Hx. apply Hf. eapply in_firstn_in. exact Hx.
Qed.

(** The recommendations come by decreasing quality score. *)
Theorem recommendations_sorted_by_score : forall db user_lat user_lon radius n,
  StronglySorted score_desc
    (recommendations (generate_recommendations db user_lat user_lon radius n)).
Proof.
  intros db u v radius n. unfold generate_recommendations. simpl.
  pose proof (nearby_sorted_by_score db u v radius) as Hs.
  assert (He : StronglySorted score_desc
                 (exclude_current (get_current_ap_status db u v 50)
                    (get_nearby_access_points db u v radius))).
  { unfold exclude_current. destruct (get_current_ap_status db u v 50);
      [apply filter_sorted|]; exact Hs. }
  unfold py_slice_to. destruct (0 <=? n)%Z; apply firstn_sorted; exact He.
Qed.

(** With a non-negative limit [n] the composer returns [min n total]
    recommendations, [total] being its [total_nearby_aps]. *)
Theorem recommendations_length : forall db user_lat user_lon radius n,
  (0 <= n)%Z ->
  List.length (recommendations (generate_recommendations db user_lat user_lon radius n))
  = Nat.min (Z.to_nat n)
      (total_nearby_aps (generate_recommendations db user_lat user_lon radius n)).
Proof.
  intros db u v radius n Hn. unfold generate_recommendations, py_slice_to. simpl.
  apply Z.leb_le in Hn. rewrite Hn. apply length_firstn.
Qed.

(** When the general radius is at least the resolver's 50 m and a current
    access point is resolved, [total_nearby_aps] is strictly below the number
    of nearby candidates. *)
Theorem total_nearby_drops_current : forall db user_lat user_lon radius n cur,
  50 <= radius ->
  current_ap (generate_recommendations db user_lat user_lon radius n) = Some cur ->
  (total_nearby_aps (generate_recommendations db user_lat user_lon radius n)
   < List.length (get_nearby_access_points db user_lat user_lon radius))%nat.
Proof.
  intros db u v radius n cur Hr Hcur. unfold generate_recommendations in *. simpl in *.
  rewrite Hcur. simpl.
  pose proof (filter_length_split (fun ap => Z.eqb (id (c_row ap)) (id (c_row cur)))
                (get_nearby_access_points db u v radius)) as Hsplit.
  assert (Hin : In cur (filter (fun ap => Z.eqb (id (c_row ap)) (id (c_row cur)))
                          (get_nearby_access_points db u v radius))).
  { apply filter_In. split; [|apply Z.eqb_refl].
    eapply current_in_nearby; [exact Hcur|exact Hr]. }
  destruct (filter (fun ap => Z.eqb (id (c_row ap)) (id (c_row cur)))
              (get_nearby_access_points db u v radius)); [contradiction|].
  simpl in Hsplit. lia.
Qed.

(** *** The latest-metric join *)

Definition max_timestamp_step (aid : Z) (acc : option Z) (m : performance_metric)
    : option Z :=
  if Z.eqb (pm_ap_id m) aid then
    match acc with
    | None => Some (pm_timestamp m)
    | Some t => Some (Z.max t (pm_timestamp m))
    end
  else acc.

Lemma max_timestamp_fold : forall ms aid,
  max_timestamp ms aid = fold_left (max_timestamp_step aid) ms None.
Proof. reflexivity. Qed.

Lemma fold_max_upper : forall aid ms acc t,
  fold_left (max_timestamp_step aid) ms acc = Some t ->
  (forall a, acc = Some a -> (a <= t)%Z) /\
  (forall m, In m ms -> pm_ap_id m = aid -> (pm_timestamp m <= t)%Z).
Proof.
  intros aid ms. induction ms as [|m ms IH]; intros acc t H; simpl in H.
  - split; [intros a Ha; rewrite H in Ha; injection Ha as <-; lia|intros m []].
  - destruct (IH _ _ H) as [H1 H2]. split.
    + intros a Ha. subst acc. unfold max_timestamp_step in H1.
      destruct (Z.eqb (pm_ap_id m) aid); [specialize (H1 _ eq_refl); lia|].
      apply H1. reflexivity.
    + intros m' [<-|Hm'] Hid; [|apply H2; assumption].
      unfold max_timestamp_step in H1. rewrite Hid, Z.eqb_refl in H1.
      destruct acc; specialize (H1 _ eq_refl); lia.
Qed.

Lemma fold_max_attained : forall aid ms acc t,
  fold_left (max_timestamp_step aid) ms acc = Some t ->
  acc = Some t \/ exists m, In m ms /\ pm_ap_id m = aid /\ pm_timestamp m = t.
Proof.
  intros aid ms. induction ms as [|m ms IH]; intros acc t H; simpl in H; [auto|].
  destruct (IH _ _ H) as [Ha|[m' [Hin [Hid Ht]]]].
  - unfold max_timestamp_step in Ha.
    destruct (Z.eqb (pm_ap_id m) aid) eqn:E; [|auto].
    apply Z.eqb_eq in E. destruct acc as [a|].
    + injection Ha as Ha. destruct (Z.max_spec a (pm_timestamp m)) as [[_ M]|[_ M]];
        rewrite M in Ha; [right; exists m; simpl; auto|left; congruence].
    + injection Ha as Ha. right. exists m. simpl. auto.
  - right. exists m'. simpl. auto.
Qed.

Lemma fold_max_none : forall aid ms acc,
  fold_left (max_timestamp_step aid) ms acc = None ->
  acc = None /\ forall m, In m ms -> pm_ap_id m <> aid.
Proof.
  intros aid ms. induction ms as [|m ms IH]; intros acc H; simpl in H.
  - split; [exact H|intros m []].
  - destruct (IH _ H) as [Ha Hms]. unfold max_timestamp_step in Ha.
    destruct (Z.eqb (pm_ap_id m) aid) eqn:E.
    + destruct acc; discriminate.
    + split; [exact Ha|]. intros m' [<-|Hm'].
      * apply Z.eqb_neq. exact E.
      * apply Hms. exact Hm'.
Qed.

(** Each row the join produces for an access point carries either no metric,
    when the access point has none, or one of its metrics with the largest
    timestamp. *)
Theorem left_join_latest_metric : forall ap ms r,
  In r (left_join ap (latest_metrics ms)) ->
  (r = mk_row ap None /\ forall m, In m ms -> pm_ap_id m <> ap_id ap) \/
  (exists m, r = mk_row ap (Some m) /\ In m ms /\ pm_ap_id m = ap_id ap /\
     forall m', In m' ms -> pm_ap_id m' = ap_id ap -> (pm_timestamp m' <= pm_timestamp m)%Z).
Proof.
  intros ap ms r H. unfold left_join in H.
  destruct (filter (fun m => Z.eqb (pm_ap_id m) (ap_id ap)) (latest_metrics ms))
    as [|m0 ms0] eqn:E.
  - destruct H as [<-|[]]. left. split; [reflexivity|].
    intros m Hm Hid.
    destruct (max_timestamp ms (ap_id ap)) as [t|] eqn:Et.
    + rewrite max_timestamp_fold in Et.
      destruct (fold_max_attained _ _ _ _ Et) as [Hn|[m1 [Hin1 [Hid1 Ht1]]]];
        [discriminate|].
      assert (Hf : In m1 (filter (fun m => Z.eqb (pm_ap_id m) (ap_id ap))
                             (latest_metrics ms))).
      { apply filter_In. split; [|apply Z.eqb_eq; exact Hid1].
        unfold latest_metrics. apply filter_In. split; [exact Hin1|].
        rewrite Hid1. rewrite <- max_timestamp_fold in Et. rewrite Et.
        apply Z.eqb_eq. symmetry. exact Ht1. }
      rewrite E in Hf. contradiction.
    + rewrite max_timestamp_fold in Et.
      apply (proj2 (fold_max_none _ _ _ Et) m Hm Hid).
  - right. rewrite <- E in H. apply in_map_iff in H as [m [<- Hm]].
    apply filter_In in Hm as [Hm Hid]. apply Z.eqb_eq in Hid.
    unfold latest_metrics in Hm. apply filter_In in Hm as [Hin Hmax].
    exists m. split; [reflexivity|]. split; [exact Hin|]. split; [exact Hid|].
    intros m' Hin' Hid'.
    destruct (max_timestamp ms (pm_ap_id m)) as [t|] eqn:Et; [|discriminate].
    apply Z.eqb_eq in Hmax. subst t.
    rewrite max_timestamp_fold in Et.
    apply (proj2 (fold_max_upper _ _ _ _ Et) m'); [exact Hin'|congruence].
Qed.

(** *** Trend reader *)

(** The SQL text [get_trend_analysis] passes to [cursor.execute]. *)
Definition trend_query : string :=
  "SELECT download_speed, upload_speed, latency, connected_users, signal_strength, timestamp FROM performance_metrics WHERE ap_id = ? AND timestamp >= datetime('now', '-{} hours') ORDER BY timestamp ASC".

(** The number of [?] placeholders of a statement (the query holds no [?]
    inside a string literal). *)
Fixpoint count_placeholders (s : string) : nat :=
  match s with
  | EmptyString => 0
  | String c rest =>
      (if Ascii.eqb c "?"%char then 1 else 0) + count_placeholders rest
  end.

(** The outcome of [cursor.execute] followed by [fetchall]. *)
Inductive sql_result (A : Type) :=
| SqlRows (rows : list A)
| ProgrammingError (msg : string).
Arguments SqlRows {A} rows.
Arguments ProgrammingError {A} msg.

(** sqlite3 refuses a parameter tuple whose length differs from the number
    of placeholders. *)
Definition cursor_execute {A} (sql : string) (params : list Z) (run : unit -> list A)
    : sql_result A :=
  if Nat.eqb (count_placeholders sql) (List.length params)
  then SqlRows (run tt)
  else ProgrammingError "Incorrect number of bindings supplied.".

(** [datetime('now', '-{} hours')]: the braces are never formatted, the
    modifier is invalid and SQLite yields NULL. *)
Definition trend_cutoff : option Z := None.

(** [timestamp >= <cutoff>]; a comparison with NULL is not true. *)
Definition sql_ge (ts : Z) (cutoff : option Z) : bool :=
  match cutoff with Some c => Z.leb c ts | None => false end.

Fixpoint insert_by_timestamp (m : performance_metric) (l : list performance_metric)
    : list performance_metric :=
  match l with
  | [] => [m]
  | m' :: l' =>
      if Z.leb (pm_timestamp m') (pm_timestamp m)
      then m' :: insert_by_timestamp m l'
      else m :: m' :: l'
  end.

(** [metric_dict]: the six selected columns; [calculate_quality_score] reads
    only the metric fields of the row. *)
Definition metric_row (m : performance_metric) : row :=
  {| id := 0; ap_name := ""; building := ""; floor := 0; room_number := "";
     latitude := None; longitude := None;
     download_speed := pm_download_speed m; upload_speed := pm_upload_speed m;
     latency := pm_latency m; connected_users := pm_connected_users m;
     signal_strength := pm_signal_strength m; timestamp := Some (pm_timestamp m) |}.

Definition trend_rows (db : database) (ap_id : Z) (cutoff : option Z)
    : list performance_metric :=
  fold_left (fun acc m => insert_by_timestamp m acc)
    (filter (fun m => Z.eqb (pm_ap_id m) ap_id && sql_ge (pm_timestamp m) cutoff)
       (performance_metrics db))
    [].

Definition get_trend_analysis (db : database) (ap_id : Z) (hours_back : Z)
    : sql_result (performance_metric * Q) :=
  match cursor_execute trend_query [ap_id; hours_back]
          (fun _ => trend_rows db ap_id trend_cutoff) with
  | SqlRows rows => SqlRows (map (fun m => (m, calculate_quality_score (metric_row m))) rows)
  | ProgrammingError msg => ProgrammingError msg
  end.

(** [get_trend_analysis] never returns trend data: its statement has one
    placeholder for two parameters, so every call raises sqlite3's
    ProgrammingError; and the statement, were it run, would select no row,
    as its cutoff is NULL. *)
Theorem get_trend_analysis_always_fails : forall db ap_id hours_back,
  get_trend_analysis db ap_id hours_back
  = ProgrammingError "Incorrect number of bindings supplied." /\
  trend_rows db ap_id trend_cutoff = [].
Proof.
  intros db aid hours. split; [reflexivity|].
  unfold trend_rows, trend_cutoff, sql_ge.
  replace (filter _ (performance_metrics db)) with (@nil performance_metric);
    [reflexivity|].
  induction (performance_metrics db) as [|m ms IH]; simpl; [reflexivity|].
  rewrite andb_false_r. exact IH.
Qed.

(** *** Witnesses *)

Lemma score_monotone_download_witness :
  calculate_quality_score (with_download all_defaults_record (Some 10))
  <= calculate_quality_score (with_download all_defaults_record (Some 20)).
Proof. apply score_monotone_download. discriminate. Defined.

Lemma score_monotone_upload_witness :
  calculate_quality_score (with_upload all_defaults_record (Some 10))
  <= calculate_quality_score (with_upload all_defaults_record (Some 20)).
Proof. apply score_monotone_upload. discriminate. Defined.

Lemma score_antitone_users_witness :
  calculate_quality_score (with_users all_defaults_record (Some 30%Z))
  <= calculate_quality_score (with_users all_defaults_record (Some 5%Z)).
Proof. apply score_antitone_users. lia. Defined.

Lemma score_antitone_latency_nonzero_witness :
  calculate_quality_score (with_latency all_defaults_record (Some (1 # 2)))
  <= calculate_quality_score (with_latency all_defaults_record (Some (1 # 10))).
Proof.
  apply score_antitone_latency_nonzero; [discriminate|discriminate|discriminate].
Defined.

Lemma score_monotone_signal_nonzero_witness :
  calculate_quality_score (with_signal all_defaults_record (Some (-70)))
  <= calculate_quality_score (with_signal all_defaults_record (Some (-40))).
Proof.
  apply score_monotone_signal_nonzero; [discriminate|discriminate|discriminate].
Defined.

Lemma score_throughput_saturates_witness :
  calculate_quality_score (with_download all_defaults_record (Some 150))
  = calculate_quality_score (with_download all_defaults_record (Some 300)) /\
  calculate_quality_score (with_upload all_defaults_record (Some 60))
  = calculate_quality_score (with_upload all_defaults_record (Some 90)).
Proof.
  destruct (score_throughput_saturates all_defaults_record 150 300) as [H1 _].
  destruct (score_throughput_saturates all_defaults_record 60 90) as [_ H2].
  split; [apply H1|apply H2]; discriminate.
Defined.

Lemma current_in_nearby_witness :
  In (score_row 1 1 measured_row) (get_nearby_access_points db_measured 1 1 1000).
Proof.
  apply (current_in_nearby db_measured 1 1 50 1000).
  - apply current_measured. discriminate.
  - discriminate.
Defined.

Lemma recommendations_length_witness :
  List.length (recommendations (generate_recommendations db_measured 1 1 1000 3))
  = Nat.min 3 (total_nearby_aps (generate_recommendations db_measured 1 1 1000 3)).
Proof. apply recommendations_length. lia. Defined.

Lemma total_nearby_drops_current_witness :
  (total_nearby_aps (generate_recommendations db_measured 1 1 1000 5)
   < List.length (get_nearby_access_points db_measured 1 1 1000))%nat.
Proof.
  apply (total_nearby_drops_current db_measured 1 1 1000 5 (score_row 1 1 measured_row)).
  - discriminate.
  - unfold generate_recommendations. simpl. apply current_measured. discriminate.
Defined.

Lemma left_join_latest_metric_witness :
  (mk_row library_ap (Some library_metric) = mk_row library_ap None /\
   forall m, In m [library_metric] -> pm_ap_id m <> ap_id library_ap) \/
  (exists m, mk_row library_ap (Some library_metric) = mk_row library_ap (Some m) /\
     In m [library_metric] /\ pm_ap_id m = ap_id library_ap /\
     forall m', In m' [library_metric] -> pm_ap_id m' = ap_id library_ap ->
       (pm_timestamp m' <= pm_timestamp m)%Z).
Proof.
  apply left_join_latest_metric. left. reflexivity.
Defined.

(** A second access point beside the library one, at the same position. *)
Definition lab_ap : access_point :=
  {| ap_id := 2; ap_ap_name := "LAB-AP-2"; ap_building := "Lab"; ap_floor := 3;
     ap_room_number := "310"; ap_latitude := Some 1; ap_longitude := Some 1 |}.

Definition lab_metric : performance_metric :=
  {| pm_ap_id := 2; pm_download_speed := Some 90; pm_upload_speed := Some 45;
     pm_latency := Some (1 # 100); pm_connected_users := Some 3%Z;
     pm_signal_strength := Some (-45); pm_timestamp := 100 |}.

Definition db_two : database :=
  {| access_points := [library_ap; lab_ap];
     performance_metrics := [library_metric; lab_metric] |}.

Definition lab_row : row := mk_row lab_ap (Some lab_metric).

Lemma located_rows_two : located_rows db_two = [measured_row; lab_row].
Proof. reflexivity. Qed.

Lemma current_two : get_current_ap_status db_two 1 1 50 = Some (score_row 1 1 measured_row).
Proof.
  unfold get_current_ap_status. rewrite located_rows_two.
  cbn [order_by_manhattan_limit1 closest_from].
  replace (Qlt_bool (manhattan 1 1 lab_row) (manhattan 1 1 measured_row)) with false
    by reflexivity.
  apply score_if_within_intro; [reflexivity|reflexivity|].
  rewrite (distance_to_same _ 1 1) by reflexivity. apply Q2R_nonneg. discriminate.
Qed.

Lemma score_if_within_two : forall r, In r [measured_row; lab_row] ->
  score_if_within 1 1 1000 r = Some (score_row 1 1 r).
Proof.
  intros r Hr. apply score_if_within_intro.
  - destruct Hr as [<-|[<-|[]]]; reflexivity.
  - destruct Hr as [<-|[<-|[]]]; reflexivity.
  - rewrite (distance_to_same _ 1 1).
    + apply Q2R_nonneg. discriminate.
    + destruct Hr as [<-|[<-|[]]]; reflexivity.
    + destruct Hr as [<-|[<-|[]]]; reflexivity.
Qed.

Lemma nearby_two :
  get_nearby_access_points db_two 1 1 1000 = [score_row 1 1 lab_row; score_row 1 1 measured_row].
Proof.
  unfold get_nearby_access_points. rewrite located_rows_two. cbn [flat_map].
  rewrite (score_if_within_two measured_row), (score_if_within_two lab_row)
    by (simpl; auto).
  unfold sort_by_score_desc. cbn [fold_left app insert_desc].
  replace (Qle_bool (quality_score (score_row 1 1 lab_row))
                    (quality_score (score_row 1 1 measured_row))) with false
    by (vm_compute; reflexivity).
  reflexivity.
Qed.

Lemma recommendations_two :
  In (score_row 1 1 lab_row) (recommendations (generate_recommendations db_two 1 1 1000 5)).
Proof.
  unfold generate_recommendations. cbn [recommendations].
  rewrite current_two, nearby_two. unfold exclude_current. cbn [filter].
  replace (negb (Z.eqb (id (c_row (score_row 1 1 lab_row)))
                       (id (c_row (score_row 1 1 measured_row))))) with true
    by reflexivity.
  replace (negb (Z.eqb (id (c_row (score_row 1 1 measured_row)))
                       (id (c_row (score_row 1 1 measured_row))))) with false
    by reflexivity.
  left. reflexivity.
Qed.

Lemma recommendations_nearby_not_current_witness :
  In (score_row 1 1 lab_row) (get_nearby_access_points db_two 1 1 1000) /\
  forall cur, current_ap (generate_recommendations db_two 1 1 1000 5) = Some cur ->
    id (c_row (score_row 1 1 lab_row)) <> id (c_row cur).
Proof.
  apply (recommendations_nearby_not_current db_two 1 1 1000 5). apply recommendations_two.
Defined.
